(** * Aave crypto bot for Avalanche: a shallow embedding of [aave.py]

    The script polls a remote lending API and, from two threshold
    comparisons, issues deposit and borrow requests.  Everything the script
    does that can be observed from outside is an HTTP request, a log record
    or a sleep; the embedding therefore runs every coroutine against a
    [network] (the remote service, free to answer anything) and returns the
    events the coroutine produced together with its Python outcome: a
    returned value or a raised exception. *)

From Stdlib Require Import ZArith List String Bool Lia.
Import ListNotations.

Open Scope string_scope.
Open Scope list_scope.
Open Scope Z_scope.

Set Warnings "-register-all".

(** ** Python values *)

(** A Python [float]: not-a-number, an infinity, or the finite number
    [m * 2^e].  Every IEEE double is one of these. *)
Inductive pyfloat : Type :=
| FNan
| FInf (negative : bool)
| FFinite (m e : Z).

(** What [response.json()] can hand back: the Python image of a JSON
    document.  A [dict] is kept as the list of its items. *)
Inductive value : Type :=
| PyNone
| PyBool (b : bool)
| PyInt (z : Z)
| PyFloat (f : pyfloat)
| PyStr (s : string)
| PyList (l : list value)
| PyDict (items : list (string * value)).

(** The exceptions the script can meet; all of them derive from
    [Exception], so [except Exception] catches each one. *)
Inductive exn : Type :=
| ClientConnectionError (reason : string)
| ClientResponseError (status : Z)
| JSONDecodeError
| KeyError (key : string)
| TypeError (what : string)
| RecursionError.

Inductive result (A : Type) : Type :=
| Returned (a : A)
| Raised (e : exn).
Arguments Returned {A} a.
Arguments Raised {A} e.

(** [bool(v)], the test an [if v and ...] applies to [v]. *)
Definition truthy (v : value) : bool :=
  match v with
  | PyNone => false
  | PyBool b => b
  | PyInt z => negb (z =? 0)
  | PyFloat (FFinite m _) => negb (m =? 0)
  | PyFloat _ => true
  | PyStr EmptyString => false
  | PyStr _ => true
  | PyList [] => false
  | PyList _ => true
  | PyDict [] => false
  | PyDict _ => true
  end.

(** [f >= n] for a float [f] and an int [n]; Python compares the two
    exactly. *)
Definition float_ge_int (f : pyfloat) (n : Z) : bool :=
  match f with
  | FNan => false
  | FInf negative => negb negative
  | FFinite m e => if 0 <=? e then n <=? m * 2 ^ e else n * 2 ^ (- e) <=? m
  end.

Definition type_name (v : value) : string :=
  match v with
  | PyNone => "NoneType"
  | PyBool _ => "bool"
  | PyInt _ => "int"
  | PyFloat _ => "float"
  | PyStr _ => "str"
  | PyList _ => "list"
  | PyDict _ => "dict"
  end.

(** [v >= n] for an int [n].  Numbers (and [bool], a subclass of [int])
    compare; every other type raises [TypeError]. *)
Definition py_ge (v : value) (n : Z) : result bool :=
  match v with
  | PyInt z => Returned (n <=? z)
  | PyBool b => Returned (n <=? (if b then 1 else 0))
  | PyFloat f => Returned (float_ge_int f n)
  | _ => Raised (TypeError ("'>=' not supported between instances of '"
                            ++ type_name v ++ "' and 'int'")%string)
  end.

(** [v == s] for a string literal [s]; [==] never raises. *)
Definition py_eq_str (v : value) (s : string) : bool :=
  match v with
  | PyStr s' => String.eqb s' s
  | _ => false
  end.

Fixpoint dict_get (items : list (string * value)) (key : string) : option value :=
  match items with
  | [] => None
  | (k, v) :: rest => if String.eqb k key then Some v else dict_get rest key
  end.

(** [v[key]] for a string [key]. *)
Definition subscript (v : value) (key : string) : result value :=
  match v with
  | PyDict items =>
      match dict_get items key with
      | Some x => Returned x
      | None => Raised (KeyError key)
      end
  | PyList _ => Raised (TypeError "list indices must be integers or slices, not str")
  | PyStr _ => Raised (TypeError "string indices must be integers, not 'str'")
  | _ => Raised (TypeError ("'" ++ type_name v ++ "' object is not subscriptable")%string)
  end.

(** ** The outside world *)

Inductive request : Type :=
| GET (url : string)
| POST (url : string) (json : list (string * value)).

(** What [await response.json()] does with the body of a response, and
    what the logging module can then do with the parsed value.  A body
    nested beyond the interpreter's recursion limit does not parse
    ([NotJson]).  A body nested within a few levels of that limit parses,
    but is too deep to be rendered from inside the logging module, whose
    handler works several frames below the call that parsed the body
    ([DeepJson]).  Where that window lies depends on the interpreter's
    stack, so the answer says on which side of it the body is. *)
Inductive payload : Type :=
| Json (v : value)
| NotJson
| DeepJson (v : value).

(** The value a body parses to. *)
Definition parsed (p : payload) : option value :=
  match p with
  | Json v | DeepJson v => Some v
  | NotJson => None
  end.

Record response : Type := { status : Z; body : payload }.

(** The answer to one request: the transport fails, or a response
    arrives. *)
Inductive answer : Type :=
| TransportError (reason : string)
| Answered (r : response).

Inductive level : Type := INFO | ERROR.

(** The interpolated part of a log message. *)
Inductive fmt_arg : Type :=
| NoArg
| ValArg (v : value)
| ExnArg (e : exn).

Inductive event : Type :=
| Http (r : request)
| Log (lv : level) (text : string) (arg : fmt_arg)
| Sleep (seconds : Z).

Definition trace : Type := list event.

(** The remote service: its answer may depend on the request and on
    everything that happened before it. *)
Definition network : Type := trace -> request -> answer.

(** ** Coroutines

    A coroutine runs against the network from a history and yields its
    outcome and the events it added, oldest first. *)
Definition M (A : Type) : Type := network -> trace -> result A * trace.

Definition ret {A} (a : A) : M A := fun _ _ => (Returned a, []).

Definition raise {A} (e : exn) : M A := fun _ _ => (Raised e, []).

Definition bind {A B} (m : M A) (k : A -> M B) : M B :=
  fun net h =>
    match m net h with
    | (Returned a, e1) => let (r, e2) := k a net (h ++ e1) in (r, e1 ++ e2)
    | (Raised x, e1) => (Raised x, e1)
    end.

Notation "x <- m ;; k" := (bind m (fun x => k))
  (at level 61, m at next level, right associativity).
Notation "m ;; k" := (bind m (fun _ => k))
  (at level 61, right associativity).

(** [try: m  except Exception as e: handler e]. *)
Definition try_except {A} (m : M A) (handler : exn -> M A) : M A :=
  fun net h =>
    match m net h with
    | (Raised x, e1) => let (r, e2) := handler x net (h ++ e1) in (r, e1 ++ e2)
    | done => done
    end.

Definition lift {A} (r : result A) : M A := fun _ _ => (r, []).

Definition emit (ev : event) : M unit := fun _ _ => (Returned tt, [ev]).

Definition logger_info (text : string) (arg : fmt_arg) : M unit :=
  emit (Log INFO text arg).

Definition logger_error (text : string) (arg : fmt_arg) : M unit :=
  emit (Log ERROR text arg).

(** [session.get(url)] and [session.post(url, json=...)]: the request goes
    out, then the transport fails or the response comes back.  Opening and
    closing the [ClientSession] around it sends nothing. *)
Definition send (rq : request) : M response :=
  fun net h =>
    match net h rq with
    | TransportError reason => (Raised (ClientConnectionError reason), [Http rq])
    | Answered r => (Returned r, [Http rq])
    end.

Definition session_get (url : string) : M response := send (GET url).

Definition session_post (url : string) (json : list (string * value)) : M response :=
  send (POST url json).

(** aiohttp's [ClientResponse.raise_for_status]: raises
    [ClientResponseError] when the response is not [ok], and [ok] is
    [400 > status]; a 1xx or 3xx status that reaches the caller passes. *)
Definition raise_for_status (r : response) : M unit :=
  if 400 <=? status r then raise (ClientResponseError (status r)) else ret tt.

(** [await response.json()]. *)
Definition response_json (r : response) : M value :=
  match parsed (body r) with
  | Some v => ret v
  | None => raise JSONDecodeError
  end.

(** [logger.info(data)] for the parsed body [data] of [r]: the record is
    rendered, [str(data)], inside the logging handler, and
    [StreamHandler.emit] lets the [RecursionError] of a body that is too
    deep for it propagate to the caller.  (An f-string, by contrast, renders
    in the coroutine's own frame, above the frames that parsed the body,
    and cannot overflow on a value that was parsed.) *)
Definition logger_info_data (r : response) (data : value) : M unit :=
  match body r with
  | DeepJson _ => raise RecursionError
  | _ => logger_info EmptyString (ValArg data)
  end.

Definition asyncio_sleep (seconds : Z) : M unit := emit (Sleep seconds).

(** ** Settings *)

Definition private_key : string := "your_private_key_here".

Definition amount_to_borrow : Z := 1000.
Definition collateral_for_borrow : Z := 2000.
Definition asset_to_borrow : string := "USDT".
Definition loan_duration : Z := 30.

Definition amount_to_deposit : Z := 5000.
Definition asset_to_deposit : string := "DAI".

Definition borrow_url : string := "https://avax-explorer.co/api/aave/borrow".
Definition deposit_url : string := "https://avax-explorer.co/api/aave/deposit".
Definition liquidity_url : string := "https://avax-explorer.co/api/aave/liquidity".
Definition balance_url : string := "https://avax-explorer.co/api/aave/balance".

(** ** The bot *)

Definition check_balance (asset : string) : M value :=
  let url := (balance_url ++ "/" ++ asset)%string in
  try_except
    (response <- session_get url ;;
     raise_for_status response ;;
     data <- response_json response ;;
     shown <- lift (subscript data "balance") ;;
     logger_info ("Available " ++ asset ++ " balance: ")%string (ValArg shown) ;;
     lift (subscript data "balance"))
    (fun e =>
       logger_error "Error checking balance: " (ExnArg e) ;;
       ret (PyInt 0)).

Definition borrow_assets (private_key : string) (amount collateral : Z)
    (asset : string) (duration : Z) : M unit :=
  let payload :=
    [("private_key", PyStr private_key);
     ("amount", PyInt amount);
     ("collateral", PyInt collateral);
     ("asset", PyStr asset);
     ("duration", PyInt duration)] in
  try_except
    (response <- session_post borrow_url payload ;;
     raise_for_status response ;;
     data <- response_json response ;;
     st <- lift (subscript data "status") ;;
     if py_eq_str st "success" then
       txid <- lift (subscript data "txid") ;;
       logger_info "Borrowing successful! TXID: " (ValArg txid)
     else
       message <- lift (subscript data "message") ;;
       logger_error "Error borrowing assets: " (ValArg message))
    (fun e => logger_error "Error borrowing request: " (ExnArg e)).

Definition deposit_assets (private_key : string) (amount : Z) (asset : string) : M unit :=
  let payload :=
    [("private_key", PyStr private_key);
     ("amount", PyInt amount);
     ("asset", PyStr asset)] in
  try_except
    (response <- session_post deposit_url payload ;;
     raise_for_status response ;;
     data <- response_json response ;;
     st <- lift (subscript data "status") ;;
     if py_eq_str st "success" then
       txid <- lift (subscript data "txid") ;;
       logger_info "Deposit successful! TXID: " (ValArg txid)
     else
       message <- lift (subscript data "message") ;;
       logger_error "Error depositing assets: " (ValArg message))
    (fun e => logger_error "Error with deposit request: " (ExnArg e)).

Definition get_liquidity : M value :=
  try_except
    (response <- session_get liquidity_url ;;
     raise_for_status response ;;
     data <- response_json response ;;
     logger_info "Current liquidity data:" NoArg ;;
     logger_info_data response data ;;
     ret data)
    (fun e =>
       logger_error "Error fetching liquidity data: " (ExnArg e) ;;
       ret PyNone).

(** [liquidity and available_balance >= threshold]: the comparison is
    evaluated only when [liquidity] is truthy. *)
Definition gate (liquidity available_balance : value) (threshold : Z) : result bool :=
  if truthy liquidity then py_ge available_balance threshold else Returned false.

Definition make_decision : M unit :=
  liquidity <- get_liquidity ;;
  available_balance <- check_balance asset_to_deposit ;;
  go_deposit <- lift (gate liquidity available_balance amount_to_deposit) ;;
  (if go_deposit then
     logger_info "Conditions are good to deposit." NoArg ;;
     deposit_assets private_key amount_to_deposit asset_to_deposit
   else
     logger_info "Not enough balance or liquidity to deposit." NoArg) ;;
  go_borrow <- lift (gate liquidity available_balance collateral_for_borrow) ;;
  if go_borrow then
    logger_info "Conditions are good to borrow." NoArg ;;
    borrow_assets private_key amount_to_borrow collateral_for_borrow
                  asset_to_borrow loan_duration
  else
    logger_info "Not enough collateral or liquidity to borrow." NoArg.

(** [while True] has no normal exit: after any number of iterations the
    loop is still running, unless an exception left it. *)
Inductive loop_state : Type :=
| Running
| Crashed (e : exn).

(** [fuel] iterations of the body of the [while True] loop. *)
Fixpoint polling_loop (fuel : nat) (net : network) (h : trace) : loop_state * trace :=
  match fuel with
  | O => (Running, [])
  | S fuel' =>
      match (make_decision ;; asyncio_sleep 60) net h with
      | (Returned _, e1) =>
          let (s, e2) := polling_loop fuel' net (h ++ e1) in (s, e1 ++ e2)
      | (Raised x, e1) => (Crashed x, e1)
      end
  end.

Definition aave_crypto_bot (fuel : nat) (net : network) (h : trace) : loop_state * trace :=
  let start := [Log INFO "Starting the Aave crypto bot on Avalanche..." NoArg] in
  let (s, e) := polling_loop fuel net (h ++ start) in
  (s, start ++ e).

(** ** Observing a run *)

(** The HTTP requests of a trace, in the order they were sent. *)
Definition requests (t : trace) : list request :=
  flat_map (fun ev => match ev with Http r => [r] | _ => [] end) t.

Definition is_post (r : request) : bool :=
  match r with POST _ _ => true | GET _ => false end.

Definition is_get (r : request) : bool := negb (is_post r).

Definition url_of (r : request) : string :=
  match r with GET url => url | POST url _ => url end.

(** The outbound actions of a trace: its POST requests. *)
Definition actions (t : trace) : list request := filter is_post (requests t).

(** The fetches of a trace: its GET requests. *)
Definition fetches (t : trace) : list request := filter is_get (requests t).

Definition sent_to (url : string) (t : trace) : list request :=
  filter (fun r => String.eqb (url_of r) url) (requests t).

Definition sleeps (t : trace) : list Z :=
  flat_map (fun ev => match ev with Sleep s => [s] | _ => [] end) t.

(** The two requests [make_decision] can issue, with the configured
    constants. *)
Definition deposit_request : request :=
  POST deposit_url
    [("private_key", PyStr private_key);
     ("amount", PyInt amount_to_deposit);
     ("asset", PyStr asset_to_deposit)].

Definition borrow_request : request :=
  POST borrow_url
    [("private_key", PyStr private_key);
     ("amount", PyInt amount_to_borrow);
     ("collateral", PyInt collateral_for_borrow);
     ("asset", PyStr asset_to_borrow);
     ("duration", PyInt loan_duration)].

Definition liquidity_fetch : request := GET liquidity_url.

Definition balance_fetch (asset : string) : request := GET (balance_url ++ "/" ++ asset)%string.

(** A fetch has failed when it delivers no parsed body: the transport
    fails, [raise_for_status] rejects the status, or the body is not
    JSON. *)
Definition fetch_failed (a : answer) : Prop :=
  match a with
  | TransportError _ => True
  | Answered r => 400 <= status r \/ body r = NotJson
  end.

(** The balance fetch has failed when it delivers no parsed body or the
    parsed body has no ['balance'] field. *)
Definition balance_fetch_failed (a : answer) : Prop :=
  match a with
  | TransportError _ => True
  | Answered r =>
      400 <= status r \/
      match parsed (body r) with
      | None => True
      | Some data => forall v, subscript data "balance" <> Returned v
      end
  end.

(** ** Sample services *)

Definition ok (v : value) : answer := Answered {| status := 200; body := Json v |}.

Definition receipt : value :=
  PyDict [("status", PyStr "success"); ("txid", PyStr "0x7e57")].

(** A service that answers the liquidity fetch with [liquidity], every
    other fetch with [balance], and accepts every action. *)
Definition serve (liquidity balance : answer) : network :=
  fun _ rq =>
    match rq with
    | GET url => if String.eqb url liquidity_url then liquidity else balance
    | POST _ _ => ok receipt
    end.

Definition pool : value := PyDict [("available", PyInt 1000000)].

Definition balance_of (v : value) : answer := ok (PyDict [("balance", v)]).

(** A service that gives the same answer to every request. *)
Definition always (a : answer) : network := fun _ _ => a.

(** An action has failed when the transport fails, [raise_for_status]
    rejects the status, the body is not JSON, or the body's ['status']
    field is anything but ["success"]. *)
Definition action_failed (a : answer) : Prop :=
  match a with
  | TransportError _ => True
  | Answered r =>
      400 <= status r \/
      body r = NotJson \/
      exists data st,
        parsed (body r) = Some data /\
        subscript data "status" = Returned st /\
        py_eq_str st "success" = false
  end.

(** An action has succeeded, as far as the code can tell, when the
    response passes [raise_for_status], its body is JSON whose ['status']
    equals ["success"], and the ['txid'] the success message interpolates
    is there. *)
Definition action_succeeded (a : answer) : Prop :=
  exists r data st txid,
    a = Answered r /\
    status r < 400 /\
    parsed (body r) = Some data /\
    subscript data "status" = Returned st /\
    py_eq_str st "success" = true /\
    subscript data "txid" = Returned txid.

(** A service whose answers do not depend on what happened before. *)
Definition stateless (net : network) : Prop :=
  forall h h' rq, net h rq = net h' rq.

(** The plain informational messages of a trace: the texts of its INFO
    records that interpolate nothing. *)
Definition notices (t : trace) : list string :=
  flat_map (fun ev => match ev with Log INFO text NoArg => [text] | _ => [] end) t.

(** A coroutine that, against a stateless service, does the same from
    every history. *)
Definition history_free {A} (m : M A) : Prop :=
  forall net, stateless net -> forall h h', m net h = m net h'.

(** ** Proof automation *)

(** Case analysis on every answer, status test, body and subscript a
    coroutine inspects. *)
Ltac run :=
  repeat match goal with
         | |- context [match ?net ?h ?rq with TransportError _ => _ | Answered _ => _ end] =>
             destruct (net h rq) as [? | [? [? | | ?]]] eqn:?
         | |- context [if 400 <=? ?s then _ else _] => destruct (400 <=? s) eqn:?
         | |- context [match subscript ?d ?k with Returned _ => _ | Raised _ => _ end] =>
             destruct (subscript d k) eqn:?
         | |- context [if py_eq_str ?v ?s then _ else _] => destruct (py_eq_str v s) eqn:?
         | _ => progress cbn [fst snd app body status parsed]
         end.

(** Closes a goal whose hypotheses disagree on a status test. *)
Ltac status_lia :=
  cbn [status] in *;
  repeat match goal with
         | H : (400 <=? _) = false |- _ => apply Z.leb_gt in H
         | H : (400 <=? _) = true |- _ => apply Z.leb_le in H
         end;
  lia.

Ltac unfold_run :=
  unfold try_except, bind, session_get, session_post, send, raise_for_status,
    response_json, logger_info_data, lift, logger_info, logger_error, emit,
    ret, raise.

(** ** Traces *)

Lemma requests_app (a b : trace) : requests (a ++ b) = requests a ++ requests b.
Proof. apply flat_map_app. Qed.

Lemma requests_http (r : request) (t : trace) :
  requests (Http r :: t) = r :: requests t.
Proof. reflexivity. Qed.

Lemma requests_log (lv : level) (text : string) (arg : fmt_arg) (t : trace) :
  requests (Log lv text arg :: t) = requests t.
Proof. reflexivity. Qed.

Lemma requests_sleep (s : Z) (t : trace) : requests (Sleep s :: t) = requests t.
Proof. reflexivity. Qed.

Lemma requests_nil : requests [] = [].
Proof. reflexivity. Qed.

Create Rewrite HintDb requests.
#[local] Hint Rewrite requests_app requests_http requests_log requests_sleep
  requests_nil app_nil_r : requests.

Lemma actions_app (a b : trace) : actions (a ++ b) = actions a ++ actions b.
Proof. unfold actions. now rewrite requests_app, filter_app. Qed.

Lemma fetches_app (a b : trace) : fetches (a ++ b) = fetches a ++ fetches b.
Proof. unfold fetches. now rewrite requests_app, filter_app. Qed.

Lemma sent_to_app (url : string) (a b : trace) :
  sent_to url (a ++ b) = sent_to url a ++ sent_to url b.
Proof. unfold sent_to. now rewrite requests_app, filter_app. Qed.

Lemma sleeps_app (a b : trace) : sleeps (a ++ b) = sleeps a ++ sleeps b.
Proof. apply flat_map_app. Qed.

Lemma sleeps_http (r : request) (t : trace) : sleeps (Http r :: t) = sleeps t.
Proof. reflexivity. Qed.

Lemma sleeps_log (lv : level) (text : string) (arg : fmt_arg) (t : trace) :
  sleeps (Log lv text arg :: t) = sleeps t.
Proof. reflexivity. Qed.

Lemma sleeps_nil : sleeps [] = [].
Proof. reflexivity. Qed.

Create Rewrite HintDb sleeps.
#[local] Hint Rewrite sleeps_app sleeps_http sleeps_log sleeps_nil app_nil_r : sleeps.

(** ** The four remote operations *)

(** [get_liquidity] never raises and sends exactly one request. *)
Lemma get_liquidity_run (net : network) (h : trace) :
  exists L logs,
    get_liquidity net h = (Returned L, Http liquidity_fetch :: logs) /\
    requests logs = [].
Proof.
  unfold get_liquidity, liquidity_fetch. unfold_run. run; eauto.
Qed.

(** A failed liquidity fetch yields [None] and one error record. *)
Lemma get_liquidity_failed (net : network) (h : trace) :
  fetch_failed (net h liquidity_fetch) ->
  exists e,
    get_liquidity net h =
      (Returned PyNone,
       [Http liquidity_fetch; Log ERROR "Error fetching liquidity data: " (ExnArg e)]).
Proof.
  unfold get_liquidity, liquidity_fetch, fetch_failed. unfold_run.
  run; intros F; eauto.
  all: destruct F as [F | F]; [status_lia | discriminate].
Qed.

(** [check_balance] never raises and sends exactly one request. *)
Lemma check_balance_run (asset : string) (net : network) (h : trace) :
  exists B logs,
    check_balance asset net h = (Returned B, Http (balance_fetch asset) :: logs) /\
    requests logs = [].
Proof.
  unfold check_balance, balance_fetch. unfold_run. run; eauto.
Qed.

(** A failed balance fetch yields the int [0] and one error record. *)
Lemma check_balance_failed (asset : string) (net : network) (h : trace) :
  balance_fetch_failed (net h (balance_fetch asset)) ->
  exists e,
    check_balance asset net h =
      (Returned (PyInt 0),
       [Http (balance_fetch asset); Log ERROR "Error checking balance: " (ExnArg e)]).
Proof.
  unfold check_balance, balance_fetch, balance_fetch_failed. unfold_run.
  run; intros F; eauto.
  all: destruct F as [F | F]; [status_lia | ].
  all: match goal with
       | H : subscript ?d _ = Returned ?a |- _ => now contradiction (F a)
       end.
Qed.

(** A successful balance fetch yields the ['balance'] field as it is. *)
Lemma check_balance_ok (asset : string) (net : network) (h : trace)
    (r : response) (data v : value) :
  net h (balance_fetch asset) = Answered r ->
  status r < 400 ->
  parsed (body r) = Some data ->
  subscript data "balance" = Returned v ->
  check_balance asset net h =
    (Returned v,
     [Http (balance_fetch asset);
      Log INFO ("Available " ++ asset ++ " balance: ")%string (ValArg v)]).
Proof.
  intros Hnet Hst Hbody Hsub.
  unfold check_balance, balance_fetch in *. unfold_run.
  rewrite Hnet. apply Z.leb_gt in Hst. rewrite Hst, Hbody.
  cbn [app]. now rewrite Hsub.
Qed.

(** [deposit_assets] never raises: it sends one request and writes one
    log record. *)
Lemma deposit_assets_run (key : string) (amount : Z) (asset : string)
    (net : network) (h : trace) :
  exists lv text arg,
    deposit_assets key amount asset net h =
      (Returned tt,
       [Http (POST deposit_url
                [("private_key", PyStr key); ("amount", PyInt amount);
                 ("asset", PyStr asset)]);
        Log lv text arg]).
Proof.
  unfold deposit_assets. unfold_run. run; eauto.
Qed.

(** [borrow_assets] never raises: it sends one request and writes one
    log record. *)
Lemma borrow_assets_run (key : string) (amount collateral : Z) (asset : string)
    (duration : Z) (net : network) (h : trace) :
  exists lv text arg,
    borrow_assets key amount collateral asset duration net h =
      (Returned tt,
       [Http (POST borrow_url
                [("private_key", PyStr key); ("amount", PyInt amount);
                 ("collateral", PyInt collateral); ("asset", PyStr asset);
                 ("duration", PyInt duration)]);
        Log lv text arg]).
Proof.
  unfold borrow_assets. unfold_run. run; eauto.
Qed.

(** When the action fails, the single log record is an error record. *)
Lemma deposit_assets_failed (key : string) (amount : Z) (asset : string)
    (net : network) (h : trace) :
  let rq := POST deposit_url
              [("private_key", PyStr key); ("amount", PyInt amount);
               ("asset", PyStr asset)] in
  action_failed (net h rq) ->
  exists text arg,
    deposit_assets key amount asset net h =
      (Returned tt, [Http rq; Log ERROR text arg]).
Proof.
  unfold deposit_assets, action_failed. unfold_run. run; intros F; eauto.
  all: destruct F as [F | [F | (data & st & Hd & Hs & Hne)]];
    [status_lia | discriminate | congruence].
Qed.

Lemma borrow_assets_failed (key : string) (amount collateral : Z)
    (asset : string) (duration : Z) (net : network) (h : trace) :
  let rq := POST borrow_url
              [("private_key", PyStr key); ("amount", PyInt amount);
               ("collateral", PyInt collateral); ("asset", PyStr asset);
               ("duration", PyInt duration)] in
  action_failed (net h rq) ->
  exists text arg,
    borrow_assets key amount collateral asset duration net h =
      (Returned tt, [Http rq; Log ERROR text arg]).
Proof.
  unfold borrow_assets, action_failed. unfold_run. run; intros F; eauto.
  all: destruct F as [F | [F | (data & st & Hd & Hs & Hne)]];
    [status_lia | discriminate | congruence].
Qed.

(** ** The gates *)

Lemma float_ge_int_weaken (f : pyfloat) (n n' : Z) :
  n' <= n -> float_ge_int f n = true -> float_ge_int f n' = true.
Proof.
  intros Hle. destruct f as [ | negative | m e]; cbn; auto.
  destruct (0 <=? e); rewrite !Z.leb_le; intros H; [lia | ].
  assert (0 <= 2 ^ (- e)) by apply Z.pow_nonneg, Z.le_0_2.
  nia.
Qed.

(** A balance that reaches a threshold reaches every lower one. *)
Lemma py_ge_weaken (v : value) (n n' : Z) :
  n' <= n -> py_ge v n = Returned true -> py_ge v n' = Returned true.
Proof.
  intros Hle. destruct v; cbn; try discriminate; intros H; f_equal;
    injection H as H.
  - apply Z.leb_le in H. apply Z.leb_le. lia.
  - apply Z.leb_le in H. apply Z.leb_le. lia.
  - eapply float_ge_int_weaken; eauto.
Qed.

Lemma gate_true (L B : value) (n : Z) :
  gate L B n = Returned true <-> truthy L = true /\ py_ge B n = Returned true.
Proof.
  unfold gate. destruct (truthy L); split; intros H; try tauto;
    try discriminate; destruct H; discriminate.
Qed.

Lemma gate_falsy (L B : value) (n : Z) :
  truthy L = false -> gate L B n = Returned false.
Proof. unfold gate. now intros ->. Qed.

(** The two gates raise together: whether [>=] raises depends on the
    type of the balance alone. *)
Lemma gate_raises_together (L B : value) (n n' : Z) (d : bool) :
  gate L B n = Returned d -> exists b, gate L B n' = Returned b.
Proof.
  unfold gate. destruct (truthy L); [ | eauto].
  destruct B; cbn; try discriminate; eauto.
Qed.

(** ** One cycle *)

(** The outcome and the requests of one cycle, from the two values it
    fetched. *)
Lemma make_decision_run (net : network) (h : trace) (L B : value) (e1 e2 : trace) :
  get_liquidity net h = (Returned L, e1) ->
  check_balance asset_to_deposit net (h ++ e1) = (Returned B, e2) ->
  exists r evs,
    make_decision net h = (r, evs) /\
    match gate L B amount_to_deposit, gate L B collateral_for_borrow with
    | Returned d, Returned b =>
        r = Returned tt /\
        requests evs =
          liquidity_fetch :: balance_fetch asset_to_deposit ::
            (if d then [deposit_request] else []) ++
            (if b then [borrow_request] else [])
    | Returned d, Raised x =>
        r = Raised x /\
        requests evs =
          liquidity_fetch :: balance_fetch asset_to_deposit ::
            (if d then [deposit_request] else [])
    | Raised x, _ =>
        r = Raised x /\
        requests evs = [liquidity_fetch; balance_fetch asset_to_deposit]
    end.
Proof.
  intros HL HB.
  destruct (get_liquidity_run net h) as (L' & logs1 & E1 & R1).
  rewrite HL in E1. injection E1 as -> ->.
  destruct (check_balance_run asset_to_deposit net (h ++ Http liquidity_fetch :: logs1))
    as (B' & logs2 & E2 & R2).
  rewrite HB in E2. injection E2 as -> ->.
  unfold make_decision, bind, lift, logger_info, emit.
  rewrite HL, HB.
  destruct (gate L' B' amount_to_deposit) as [[ | ] | x];
    destruct (gate L' B' collateral_for_borrow) as [[ | ] | x'];
    repeat match goal with
      | |- context [deposit_assets ?k ?a ?s ?n ?hh] =>
          destruct (deposit_assets_run k a s n hh) as (? & ? & ? & ->)
      | |- context [borrow_assets ?k ?a ?c ?s ?d ?n ?hh] =>
          destruct (borrow_assets_run k a c s d n hh) as (? & ? & ? & ->)
      end;
    do 2 eexists; (split; [reflexivity | ]); (split; [reflexivity | ]);
    autorewrite with requests; rewrite R1, R2; reflexivity.
Qed.

(** The requests of a cycle decide what was sent where. *)
Lemma sent_to_of_requests (url : string) (t : trace) (rs : list request) :
  requests t = rs -> sent_to url t = filter (fun r => String.eqb (url_of r) url) rs.
Proof. unfold sent_to. now intros ->. Qed.

Lemma actions_of_requests (t : trace) (rs : list request) :
  requests t = rs -> actions t = filter is_post rs.
Proof. unfold actions. now intros ->. Qed.

Lemma fetches_of_requests (t : trace) (rs : list request) :
  requests t = rs -> fetches t = filter is_get rs.
Proof. unfold fetches. now intros ->. Qed.

(** ** The deposit gate *)

(** C1, as stated, fails: with a present (non-null) but empty liquidity
    payload and a balance of 5000, the cycle sends no deposit request. *)
Lemma deposit_gate_non_null_liquidity_fails :
  fst (get_liquidity (serve (ok (PyDict [])) (balance_of (PyInt 5000))) [])
    = Returned (PyDict []) /\
  PyDict [] <> PyNone /\
  fst (check_balance asset_to_deposit
         (serve (ok (PyDict [])) (balance_of (PyInt 5000)))
         ([] ++ snd (get_liquidity (serve (ok (PyDict [])) (balance_of (PyInt 5000))) [])))
    = Returned (PyInt 5000) /\
  py_ge (PyInt 5000) amount_to_deposit = Returned true /\
  sent_to deposit_url
    (snd (make_decision (serve (ok (PyDict [])) (balance_of (PyInt 5000))) [])) = [].
Proof. repeat split; try reflexivity. discriminate. Qed.

(** C1, amended: in every cycle whose fetched liquidity [L] is truthy and
    whose fetched balance [B] for the deposit asset satisfies [B >= 5000],
    exactly one deposit request is sent, carrying the configured amount
    5000 and asset DAI; in every cycle whose balance does not satisfy
    [B >= 5000] (in particular every [B < 5000]), no deposit request is
    sent, whatever the liquidity. *)
Theorem deposit_gate (net : network) (h : trace) (L B : value) (e1 e2 : trace) :
  get_liquidity net h = (Returned L, e1) ->
  check_balance asset_to_deposit net (h ++ e1) = (Returned B, e2) ->
  (truthy L = true ->
   py_ge B amount_to_deposit = Returned true ->
   sent_to deposit_url (snd (make_decision net h)) =
     [POST deposit_url
        [("private_key", PyStr private_key); ("amount", PyInt 5000);
         ("asset", PyStr "DAI")]]) /\
  (py_ge B amount_to_deposit <> Returned true ->
   sent_to deposit_url (snd (make_decision net h)) = []).
Proof.
  intros HL HB.
  destruct (make_decision_run net h L B e1 e2 HL HB) as (r & evs & -> & Hrun).
  cbn [snd]. split.
  - intros HT HG.
    assert (G : gate L B amount_to_deposit = Returned true) by now apply gate_true.
    assert (G' : gate L B collateral_for_borrow = Returned true).
    { apply gate_true. split; [assumption | ].
      apply py_ge_weaken with (n := amount_to_deposit); [ | assumption].
      unfold collateral_for_borrow, amount_to_deposit. lia. }
    rewrite G, G' in Hrun. destruct Hrun as [_ Hrq].
    now rewrite (sent_to_of_requests _ _ _ Hrq).
  - intros HG.
    destruct (gate L B amount_to_deposit) as [[ | ] | x] eqn:G.
    + apply gate_true in G. tauto.
    + destruct (gate L B collateral_for_borrow) as [[ | ] | x];
        destruct Hrun as [_ Hrq]; now rewrite (sent_to_of_requests _ _ _ Hrq).
    + destruct Hrun as [_ Hrq]. now rewrite (sent_to_of_requests _ _ _ Hrq).
Qed.

Lemma deposit_gate_witness :
  sent_to deposit_url
    (snd (make_decision (serve (ok pool) (balance_of (PyInt 5000))) [])) =
    [deposit_request] /\
  sent_to deposit_url
    (snd (make_decision (serve (ok pool) (balance_of (PyInt 4999))) [])) = [].
Proof.
  split.
  - edestruct (deposit_gate (serve (ok pool) (balance_of (PyInt 5000))) []
                 pool (PyInt 5000)) as [H _];
      [reflexivity | reflexivity | ].
    apply H; reflexivity.
  - edestruct (deposit_gate (serve (ok pool) (balance_of (PyInt 4999))) []
                 pool (PyInt 4999)) as [_ H];
      [reflexivity | reflexivity | ].
    apply H. discriminate.
Defined.

(** ** The borrow gate *)

(** C2, as stated, fails: with a present but empty liquidity payload and
    a balance of 2000, the cycle sends no borrow request. *)
Lemma borrow_gate_present_liquidity_fails :
  fst (get_liquidity (serve (ok (PyDict [])) (balance_of (PyInt 2000))) [])
    = Returned (PyDict []) /\
  PyDict [] <> PyNone /\
  fst (check_balance asset_to_deposit
         (serve (ok (PyDict [])) (balance_of (PyInt 2000)))
         ([] ++ snd (get_liquidity (serve (ok (PyDict [])) (balance_of (PyInt 2000))) [])))
    = Returned (PyInt 2000) /\
  py_ge (PyInt 2000) collateral_for_borrow = Returned true /\
  sent_to borrow_url
    (snd (make_decision (serve (ok (PyDict [])) (balance_of (PyInt 2000))) [])) = [].
Proof. repeat split; try reflexivity. discriminate. Qed.

(** C2, amended: in every cycle whose fetched liquidity is truthy and
    whose balance, fetched for the deposit asset, satisfies [B >= 2000],
    exactly one borrow request is sent, carrying the configured amount
    1000, collateral 2000, asset USDT and duration 30; the only balance the
    cycle fetches is the deposit asset's. *)
Theorem borrow_gate (net : network) (h : trace) (L B : value) (e1 e2 : trace) :
  get_liquidity net h = (Returned L, e1) ->
  check_balance asset_to_deposit net (h ++ e1) = (Returned B, e2) ->
  truthy L = true ->
  py_ge B collateral_for_borrow = Returned true ->
  sent_to borrow_url (snd (make_decision net h)) =
    [POST borrow_url
       [("private_key", PyStr private_key); ("amount", PyInt 1000);
        ("collateral", PyInt 2000); ("asset", PyStr "USDT");
        ("duration", PyInt 30)]] /\
  fetches (snd (make_decision net h)) =
    [GET liquidity_url; GET (balance_url ++ "/" ++ asset_to_deposit)%string].
Proof.
  intros HL HB HT HG.
  destruct (make_decision_run net h L B e1 e2 HL HB) as (r & evs & -> & Hrun).
  cbn [snd].
  assert (G : gate L B collateral_for_borrow = Returned true) by now apply gate_true.
  rewrite G in Hrun.
  destruct (gate L B amount_to_deposit) as [[ | ] | x] eqn:G'.
  - destruct Hrun as [_ Hrq].
    now rewrite (sent_to_of_requests _ _ _ Hrq), (fetches_of_requests _ _ Hrq).
  - destruct Hrun as [_ Hrq].
    now rewrite (sent_to_of_requests _ _ _ Hrq), (fetches_of_requests _ _ Hrq).
  - destruct (gate_raises_together L B collateral_for_borrow amount_to_deposit true G)
      as [d Hd].
    congruence.
Qed.

Lemma borrow_gate_witness :
  sent_to borrow_url
    (snd (make_decision (serve (ok pool) (balance_of (PyInt 2000))) [])) =
    [borrow_request] /\
  fetches (snd (make_decision (serve (ok pool) (balance_of (PyInt 2000))) [])) =
    [liquidity_fetch; balance_fetch asset_to_deposit].
Proof.
  eapply (borrow_gate (serve (ok pool) (balance_of (PyInt 2000))) []
            pool (PyInt 2000)); reflexivity.
Defined.

(** ** Independence of the two gates *)

(** C3, as stated, fails: a balance of 9000 satisfies both thresholds,
    yet with a present but empty liquidity payload the cycle issues neither
    a deposit nor a borrow. *)
Lemma both_thresholds_without_truthy_liquidity_fails :
  fst (get_liquidity (serve (ok (PyDict [])) (balance_of (PyInt 9000))) [])
    = Returned (PyDict []) /\
  fst (check_balance asset_to_deposit
         (serve (ok (PyDict [])) (balance_of (PyInt 9000)))
         ([] ++ snd (get_liquidity (serve (ok (PyDict [])) (balance_of (PyInt 9000))) [])))
    = Returned (PyInt 9000) /\
  py_ge (PyInt 9000) amount_to_deposit = Returned true /\
  py_ge (PyInt 9000) collateral_for_borrow = Returned true /\
  fst (make_decision (serve (ok (PyDict [])) (balance_of (PyInt 9000))) [])
    = Returned tt /\
  actions (snd (make_decision (serve (ok (PyDict [])) (balance_of (PyInt 9000))) [])) = [].
Proof. repeat split; reflexivity. Qed.

(** C3, amended: the two gates are evaluated one after the other, each
    on its own condition (not as else-if): the actions of a cycle are the
    deposit request when the deposit gate is open, followed by the borrow
    request when the borrow gate is open.  A cycle never issues more than
    two actions; cycles with zero, one and two actions exist; and a cycle
    whose liquidity is truthy and whose balance satisfies both thresholds
    issues the deposit and then the borrow. *)
Theorem gates_independent :
  (forall net h L B e1 e2 d b,
     get_liquidity net h = (Returned L, e1) ->
     check_balance asset_to_deposit net (h ++ e1) = (Returned B, e2) ->
     gate L B amount_to_deposit = Returned d ->
     gate L B collateral_for_borrow = Returned b ->
     fst (make_decision net h) = Returned tt /\
     actions (snd (make_decision net h)) =
       (if d then [deposit_request] else []) ++
       (if b then [borrow_request] else [])) /\
  (forall net h, (List.length (actions (snd (make_decision net h))) <= 2)%nat) /\
  (exists net, actions (snd (make_decision net [])) = []) /\
  (exists net, actions (snd (make_decision net [])) = [borrow_request]) /\
  (exists net, actions (snd (make_decision net [])) = [deposit_request; borrow_request]) /\
  (forall net h L B e1 e2,
     get_liquidity net h = (Returned L, e1) ->
     check_balance asset_to_deposit net (h ++ e1) = (Returned B, e2) ->
     truthy L = true ->
     py_ge B amount_to_deposit = Returned true ->
     py_ge B collateral_for_borrow = Returned true ->
     fst (make_decision net h) = Returned tt /\
     actions (snd (make_decision net h)) = [deposit_request; borrow_request]).
Proof.
  split; [ | split; [ | split; [ | split; [ | split]]]].
  - intros net h L B e1 e2 d b HL HB Gd Gb.
    destruct (make_decision_run net h L B e1 e2 HL HB) as (r & evs & -> & Hrun).
    rewrite Gd, Gb in Hrun. destruct Hrun as [-> Hrq].
    cbn [fst snd]. split; [reflexivity | ].
    rewrite (actions_of_requests _ _ Hrq). now destruct d, b.
  - intros net h.
    destruct (get_liquidity_run net h) as (L & logs1 & HL & _).
    destruct (check_balance_run asset_to_deposit net (h ++ Http liquidity_fetch :: logs1))
      as (B & logs2 & HB & _).
    destruct (make_decision_run net h L B _ _ HL HB) as (r & evs & -> & Hrun).
    cbn [snd].
    destruct (gate L B amount_to_deposit) as [[ | ] | x];
      destruct (gate L B collateral_for_borrow) as [[ | ] | x'];
      destruct Hrun as [_ Hrq]; rewrite (actions_of_requests _ _ Hrq);
      cbn; lia.
  - exists (serve (ok pool) (balance_of (PyInt 0))). reflexivity.
  - exists (serve (ok pool) (balance_of (PyInt 2000))). reflexivity.
  - exists (serve (ok pool) (balance_of (PyInt 5000))). reflexivity.
  - intros net h L B e1 e2 HL HB HT Gd Gb.
    destruct (make_decision_run net h L B e1 e2 HL HB) as (r & evs & -> & Hrun).
    assert (G : gate L B amount_to_deposit = Returned true) by now apply gate_true.
    assert (G' : gate L B collateral_for_borrow = Returned true) by now apply gate_true.
    rewrite G, G' in Hrun. destruct Hrun as [-> Hrq].
    cbn [fst snd]. split; [reflexivity | ].
    now rewrite (actions_of_requests _ _ Hrq).
Qed.

Lemma gates_independent_witness :
  (fst (make_decision (serve (ok pool) (balance_of (PyInt 5000))) []) = Returned tt /\
   actions (snd (make_decision (serve (ok pool) (balance_of (PyInt 5000))) [])) =
     [deposit_request; borrow_request]) /\
  (fst (make_decision (serve (ok pool) (balance_of (PyInt 9000))) []) = Returned tt /\
   actions (snd (make_decision (serve (ok pool) (balance_of (PyInt 9000))) [])) =
     [deposit_request; borrow_request]).
Proof.
  split.
  - eapply (proj1 gates_independent (serve (ok pool) (balance_of (PyInt 5000))) []
              pool (PyInt 5000) _ _ true true); reflexivity.
  - eapply (proj2 (proj2 (proj2 (proj2 (proj2 gates_independent))))
              (serve (ok pool) (balance_of (PyInt 9000))) []
              pool (PyInt 9000)); reflexivity.
Defined.

(** ** Failed fetches *)

(** C4, as stated, fails: 300 is not a 2xx status, [raise_for_status]
    lets it pass, and a body carrying a balance is returned as it is. *)
Lemma check_balance_non_2xx_not_zero :
  ~ (200 <= 300 < 300) /\
  check_balance "DAI"
    (always (Answered {| status := 300;
                         body := Json (PyDict [("balance", PyInt 7)]) |})) [] =
    (Returned (PyInt 7),
     [Http (balance_fetch "DAI");
      Log INFO "Available DAI balance: " (ValArg (PyInt 7))]) /\
  PyInt 7 <> PyInt 0.
Proof. repeat split; [lia | discriminate]. Qed.

(** C4, amended: for every failure of the balance fetch (a transport
    error, an HTTP status of 400 or more, a body that is not JSON, or a
    JSON body without a ['balance'] field), [check_balance] returns exactly
    the int 0 without raising, after one request and one error record; a
    successful fetch of a zero balance returns the same value. *)
Theorem check_balance_failure_is_zero (asset : string) (net : network) (h : trace) :
  balance_fetch_failed (net h (balance_fetch asset)) ->
  (exists e,
     check_balance asset net h =
       (Returned (PyInt 0),
        [Http (balance_fetch asset);
         Log ERROR "Error checking balance: " (ExnArg e)])) /\
  fst (check_balance asset (always (balance_of (PyInt 0))) h) = Returned (PyInt 0).
Proof.
  intros F. split; [now apply check_balance_failed | ].
  now rewrite (check_balance_ok asset (always (balance_of (PyInt 0))) h
                 {| status := 200; body := Json (PyDict [("balance", PyInt 0)]) |}
                 (PyDict [("balance", PyInt 0)]) (PyInt 0)).
Qed.

Lemma check_balance_failure_is_zero_witness :
  (exists e,
     check_balance "DAI" (always (Answered {| status := 503; body := NotJson |})) [] =
       (Returned (PyInt 0),
        [Http (balance_fetch "DAI");
         Log ERROR "Error checking balance: " (ExnArg e)])) /\
  fst (check_balance "DAI" (always (balance_of (PyInt 0))) []) = Returned (PyInt 0).
Proof.
  apply (check_balance_failure_is_zero "DAI"
           (always (Answered {| status := 503; body := NotJson |})) []).
  simpl. left. lia.
Defined.

(** A cycle whose two gates are closed returns normally without any
    action. *)
Lemma closed_gates_no_actions (net : network) (h : trace) (L B : value)
    (e1 e2 : trace) :
  get_liquidity net h = (Returned L, e1) ->
  check_balance asset_to_deposit net (h ++ e1) = (Returned B, e2) ->
  gate L B amount_to_deposit = Returned false ->
  gate L B collateral_for_borrow = Returned false ->
  fst (make_decision net h) = Returned tt /\
  actions (snd (make_decision net h)) = [].
Proof.
  intros HL HB Gd Gb.
  destruct (make_decision_run net h L B e1 e2 HL HB) as (r & evs & -> & Hrun).
  rewrite Gd, Gb in Hrun. destruct Hrun as [-> Hrq].
  cbn [fst snd]. now rewrite (actions_of_requests _ _ Hrq).
Qed.

(** The liquidity fetch yields [None] on every exception its [try]
    block can meet: a failed fetch, or a parsed body that
    [logger.info(data)] cannot render. *)
Lemma get_liquidity_none_on_exception (net : network) (h : trace) :
  fetch_failed (net h liquidity_fetch) \/
  (exists r data, net h liquidity_fetch = Answered r /\ body r = DeepJson data) ->
  exists e1, get_liquidity net h = (Returned PyNone, e1).
Proof.
  intros [F | (r & data & Hnet & Hbody)].
  - destruct (get_liquidity_failed net h F) as [e HL]. eauto.
  - unfold get_liquidity, liquidity_fetch in *. unfold_run.
    rewrite Hnet. destruct (400 <=? status r); rewrite ?Hbody; cbn; eauto.
Qed.

(** C5, as stated, fails for the failures the specification counts: a
    liquidity answer with the non-2xx status 300 and a JSON body is not
    treated as a failure; [get_liquidity] returns the body, not [None], and
    with a balance of 9000 the cycle deposits and borrows. *)
Lemma liquidity_non_2xx_not_none :
  ~ (200 <= 300 < 300) /\
  fst (get_liquidity
         (serve (Answered {| status := 300; body := Json pool |})
                (balance_of (PyInt 9000))) []) = Returned pool /\
  pool <> PyNone /\
  actions
    (snd (make_decision
            (serve (Answered {| status := 300; body := Json pool |})
                   (balance_of (PyInt 9000))) [])) =
    [deposit_request; borrow_request].
Proof. repeat split; try reflexivity; [lia | discriminate]. Qed.

(** C5, amended: for every failure of the liquidity fetch that the code
    detects (a transport error, an HTTP status of 400 or more, a body that
    is not JSON, or a parsed body on which [logger.info(data)] raises),
    [get_liquidity] returns exactly [None], and the cycle then returns
    normally and issues neither a deposit nor a borrow, whatever balance it
    fetches. *)
Theorem liquidity_failure_blocks_cycle (net : network) (h : trace) :
  fetch_failed (net h liquidity_fetch) \/
  (exists r data, net h liquidity_fetch = Answered r /\ body r = DeepJson data) ->
  exists e1,
    get_liquidity net h = (Returned PyNone, e1) /\
    forall B e2,
      check_balance asset_to_deposit net (h ++ e1) = (Returned B, e2) ->
      fst (make_decision net h) = Returned tt /\
      actions (snd (make_decision net h)) = [].
Proof.
  intros F. destruct (get_liquidity_none_on_exception net h F) as [e1 HL].
  exists e1. split; [exact HL | ].
  intros B e2 HB.
  apply (closed_gates_no_actions net h PyNone B e1 e2 HL HB); reflexivity.
Qed.

Lemma liquidity_failure_blocks_cycle_witness :
  exists e1,
    get_liquidity (serve (TransportError "timed out") (balance_of (PyInt 9000))) [] =
      (Returned PyNone, e1) /\
    forall B e2,
      check_balance asset_to_deposit
        (serve (TransportError "timed out") (balance_of (PyInt 9000))) ([] ++ e1) =
        (Returned B, e2) ->
      fst (make_decision (serve (TransportError "timed out") (balance_of (PyInt 9000))) [])
        = Returned tt /\
      actions
        (snd (make_decision (serve (TransportError "timed out") (balance_of (PyInt 9000))) []))
        = [].
Proof.
  apply (liquidity_failure_blocks_cycle
           (serve (TransportError "timed out") (balance_of (PyInt 9000))) []).
  left. simpl. exact I.
Defined.

(** ** Failed actions *)

(** C6: when the answer to a deposit or borrow request carries a
    ['status'] other than ["success"], or the transport fails, the HTTP
    status is an error, or the body is not JSON, the operation returns
    normally after exactly one request and exactly one log record, an error
    record; and no answer at all makes either operation raise. *)
Theorem failed_action_is_logged_and_swallowed
    (key : string) (amount collateral : Z) (asset : string) (duration : Z)
    (net : network) (h : trace) :
  (action_failed
     (net h (POST deposit_url
               [("private_key", PyStr key); ("amount", PyInt amount);
                ("asset", PyStr asset)])) ->
   exists text arg,
     deposit_assets key amount asset net h =
       (Returned tt,
        [Http (POST deposit_url
                 [("private_key", PyStr key); ("amount", PyInt amount);
                  ("asset", PyStr asset)]);
         Log ERROR text arg])) /\
  (action_failed
     (net h (POST borrow_url
               [("private_key", PyStr key); ("amount", PyInt amount);
                ("collateral", PyInt collateral); ("asset", PyStr asset);
                ("duration", PyInt duration)])) ->
   exists text arg,
     borrow_assets key amount collateral asset duration net h =
       (Returned tt,
        [Http (POST borrow_url
                 [("private_key", PyStr key); ("amount", PyInt amount);
                  ("collateral", PyInt collateral); ("asset", PyStr asset);
                  ("duration", PyInt duration)]);
         Log ERROR text arg])) /\
  fst (deposit_assets key amount asset net h) = Returned tt /\
  fst (borrow_assets key amount collateral asset duration net h) = Returned tt.
Proof.
  split; [ | split; [ | split]].
  - apply deposit_assets_failed.
  - apply borrow_assets_failed.
  - now destruct (deposit_assets_run key amount asset net h) as (? & ? & ? & ->).
  - now destruct (borrow_assets_run key amount collateral asset duration net h)
      as (? & ? & ? & ->).
Qed.

Lemma failed_action_is_logged_and_swallowed_witness :
  (exists text arg,
     deposit_assets private_key 5000 "DAI"
       (always (ok (PyDict [("status", PyStr "error");
                            ("message", PyStr "insufficient funds")]))) [] =
       (Returned tt, [Http deposit_request; Log ERROR text arg])) /\
  (exists text arg,
     borrow_assets private_key 1000 2000 "USDT" 30
       (always (Answered {| status := 500; body := NotJson |})) [] =
       (Returned tt, [Http borrow_request; Log ERROR text arg])).
Proof.
  split.
  - apply (proj1 (failed_action_is_logged_and_swallowed private_key 5000 0 "DAI" 0
                    (always (ok (PyDict [("status", PyStr "error");
                                         ("message", PyStr "insufficient funds")])))
                    [])).
    simpl. right. right.
    exists (PyDict [("status", PyStr "error"); ("message", PyStr "insufficient funds")]),
      (PyStr "error").
    repeat split; reflexivity.
  - apply (proj1 (proj2 (failed_action_is_logged_and_swallowed
                           private_key 1000 2000 "USDT" 30
                           (always (Answered {| status := 500; body := NotJson |})) []))).
    simpl. left. lia.
Defined.

(** ** Falsy liquidity and failed balance *)

(** C8: an empty object, an empty array, the number 0 and the empty
    string are falsy although they are not [None]; and whenever the fetched
    liquidity is falsy, the cycle issues neither a deposit nor a borrow,
    whatever the balance. *)
Theorem falsy_liquidity_blocks_cycle :
  (truthy (PyDict []) = false /\ truthy (PyList []) = false /\
   truthy (PyInt 0) = false /\ truthy (PyStr EmptyString) = false) /\
  forall net h L B e1 e2,
    get_liquidity net h = (Returned L, e1) ->
    check_balance asset_to_deposit net (h ++ e1) = (Returned B, e2) ->
    truthy L = false ->
    fst (make_decision net h) = Returned tt /\
    actions (snd (make_decision net h)) = [].
Proof.
  split; [repeat split | ].
  intros net h L B e1 e2 HL HB HF.
  apply (closed_gates_no_actions net h L B e1 e2 HL HB); now apply gate_falsy.
Qed.

Lemma falsy_liquidity_blocks_cycle_witness :
  fst (make_decision (serve (ok (PyDict [])) (balance_of (PyInt 9000))) []) = Returned tt /\
  actions (snd (make_decision (serve (ok (PyDict [])) (balance_of (PyInt 9000))) [])) = [].
Proof.
  eapply (proj2 falsy_liquidity_blocks_cycle
            (serve (ok (PyDict [])) (balance_of (PyInt 9000))) []
            (PyDict []) (PyInt 9000)); reflexivity.
Defined.

(** C9: both thresholds are strictly positive, so a cycle whose balance
    fetch failed issues neither a deposit nor a borrow, whatever the
    liquidity. *)
Theorem failed_balance_blocks_cycle (net : network) (h : trace) (L : value) (e1 : trace) :
  get_liquidity net h = (Returned L, e1) ->
  balance_fetch_failed (net (h ++ e1) (balance_fetch asset_to_deposit)) ->
  (0 < amount_to_deposit /\ 0 < collateral_for_borrow) /\
  fst (check_balance asset_to_deposit net (h ++ e1)) = Returned (PyInt 0) /\
  fst (make_decision net h) = Returned tt /\
  actions (snd (make_decision net h)) = [].
Proof.
  intros HL F.
  destruct (check_balance_failed asset_to_deposit net (h ++ e1) F) as [e HB].
  split; [split; reflexivity | ].
  split; [now rewrite HB | ].
  apply (closed_gates_no_actions net h L (PyInt 0) e1 _ HL HB);
    unfold gate; now destruct (truthy L).
Qed.

Lemma failed_balance_blocks_cycle_witness :
  (0 < amount_to_deposit /\ 0 < collateral_for_borrow) /\
  fst (check_balance asset_to_deposit
         (serve (ok pool) (TransportError "connection reset"))
         ([] ++ snd (get_liquidity (serve (ok pool) (TransportError "connection reset")) [])))
    = Returned (PyInt 0) /\
  fst (make_decision (serve (ok pool) (TransportError "connection reset")) []) = Returned tt /\
  actions (snd (make_decision (serve (ok pool) (TransportError "connection reset")) [])) = [].
Proof.
  apply (failed_balance_blocks_cycle
           (serve (ok pool) (TransportError "connection reset")) [] pool
           (snd (get_liquidity (serve (ok pool) (TransportError "connection reset")) []))).
  - reflexivity.
  - simpl. exact I.
Defined.

(** ** Deposit implies borrow *)

(** C10: the collateral constant does not exceed the deposit amount, so
    every cycle that issues a deposit also issues a borrow: its requests
    are the two fetches, the deposit and then the borrow. *)
Theorem deposit_implies_borrow (net : network) (h : trace) :
  sent_to deposit_url (snd (make_decision net h)) <> [] ->
  collateral_for_borrow <= amount_to_deposit /\
  requests (snd (make_decision net h)) =
    [liquidity_fetch; balance_fetch asset_to_deposit; deposit_request; borrow_request].
Proof.
  intros Hdep. split; [unfold collateral_for_borrow, amount_to_deposit; lia | ].
  destruct (get_liquidity_run net h) as (L & logs1 & HL & _).
  destruct (check_balance_run asset_to_deposit net (h ++ Http liquidity_fetch :: logs1))
    as (B & logs2 & HB & _).
  destruct (make_decision_run net h L B _ _ HL HB) as (r & evs & E & Hrun).
  rewrite E in *. cbn [snd] in *.
  destruct (gate L B amount_to_deposit) as [[ | ] | x] eqn:Gd.
  - assert (Gb : gate L B collateral_for_borrow = Returned true).
    { apply gate_true in Gd. destruct Gd as [HT HG]. apply gate_true.
      split; [assumption | ].
      apply py_ge_weaken with (n := amount_to_deposit); [ | assumption].
      unfold collateral_for_borrow, amount_to_deposit. lia. }
    rewrite Gb in Hrun. now destruct Hrun.
  - exfalso. apply Hdep.
    destruct (gate L B collateral_for_borrow) as [[ | ] | x];
      destruct Hrun as [_ Hrq]; now rewrite (sent_to_of_requests _ _ _ Hrq).
  - exfalso. apply Hdep.
    destruct Hrun as [_ Hrq]. now rewrite (sent_to_of_requests _ _ _ Hrq).
Qed.

Lemma deposit_implies_borrow_witness :
  collateral_for_borrow <= amount_to_deposit /\
  requests (snd (make_decision (serve (ok pool) (balance_of (PyInt 7500))) [])) =
    [liquidity_fetch; balance_fetch asset_to_deposit; deposit_request; borrow_request].
Proof.
  apply (deposit_implies_borrow (serve (ok pool) (balance_of (PyInt 7500))) []).
  simpl. discriminate.
Defined.

(** ** The polling loop *)

(** No remote operation sleeps. *)
Lemma get_liquidity_sleeps (net : network) (h : trace) :
  sleeps (snd (get_liquidity net h)) = [].
Proof. unfold get_liquidity. unfold_run. run; reflexivity. Qed.

Lemma check_balance_sleeps (asset : string) (net : network) (h : trace) :
  sleeps (snd (check_balance asset net h)) = [].
Proof. unfold check_balance. unfold_run. run; reflexivity. Qed.

Lemma make_decision_sleeps (net : network) (h : trace) :
  sleeps (snd (make_decision net h)) = [].
Proof.
  destruct (get_liquidity_run net h) as (L & logs1 & HL & _).
  pose proof (get_liquidity_sleeps net h) as S1. rewrite HL in S1. cbn [snd] in S1. rewrite sleeps_http in S1.
  destruct (check_balance_run asset_to_deposit net (h ++ Http liquidity_fetch :: logs1))
    as (B & logs2 & HB & _).
  pose proof (check_balance_sleeps asset_to_deposit net
                (h ++ Http liquidity_fetch :: logs1)) as S2.
  rewrite HB in S2. cbn [snd] in S2. rewrite sleeps_http in S2.
  unfold make_decision, bind, lift, logger_info, emit.
  rewrite HL, HB.
  destruct (gate L B amount_to_deposit) as [[ | ] | x];
    destruct (gate L B collateral_for_borrow) as [[ | ] | x'];
    repeat match goal with
      | |- context [deposit_assets ?k ?a ?s ?n ?hh] =>
          destruct (deposit_assets_run k a s n hh) as (? & ? & ? & ->)
      | |- context [borrow_assets ?k ?a ?c ?s ?d ?n ?hh] =>
          destruct (borrow_assets_run k a c s d n hh) as (? & ? & ? & ->)
      end;
    cbn [snd]; autorewrite with sleeps; rewrite S1, S2; reflexivity.
Qed.

(** Every cycle, whatever its outcome, fetches the liquidity once. *)
Lemma make_decision_fetches_liquidity_once (net : network) (h : trace) :
  sent_to liquidity_url (snd (make_decision net h)) = [liquidity_fetch].
Proof.
  destruct (get_liquidity_run net h) as (L & logs1 & HL & _).
  destruct (check_balance_run asset_to_deposit net (h ++ Http liquidity_fetch :: logs1))
    as (B & logs2 & HB & _).
  destruct (make_decision_run net h L B _ _ HL HB) as (r & evs & -> & Hrun).
  cbn [snd].
  destruct (gate L B amount_to_deposit) as [[ | ] | x];
    destruct (gate L B collateral_for_borrow) as [[ | ] | x'];
    destruct Hrun as [_ Hrq]; now rewrite (sent_to_of_requests _ _ _ Hrq).
Qed.

(** X13: as long as no cycle raises, the loop keeps running: after
    [fuel] iterations it has run [fuel] cycles, one liquidity fetch each,
    and slept [fuel] times, 60 each time; this holds against every
    service, stateless or not. *)
Lemma polling_loop_running (fuel : nat) (net : network) (h evs : trace) :
  polling_loop fuel net h = (Running, evs) ->
  sleeps evs = repeat 60 fuel /\
  sent_to liquidity_url evs = repeat liquidity_fetch fuel.
Proof.
  revert h evs. induction fuel as [ | fuel IH]; intros h evs.
  - cbn. intros [= <-]. split; reflexivity.
  - cbn [polling_loop]. unfold bind at 1, asyncio_sleep, emit.
    pose proof (make_decision_sleeps net h) as Hs.
    pose proof (make_decision_fetches_liquidity_once net h) as Hq.
    destruct (make_decision net h) as [[[] | x] cyc]; [ | discriminate].
    cbn [snd] in Hs, Hq.
    destruct (polling_loop fuel net (h ++ cyc ++ [Sleep 60])) as [s rest] eqn:Hrest.
    intros [= -> <-].
    destruct (IH _ _ Hrest) as [IHs IHq].
    rewrite !sleeps_app, !sent_to_app, Hs, Hq, IHs, IHq. split; reflexivity.
Qed.

(** The only exception that can leave the loop is the [TypeError] of a
    threshold comparison. *)
Lemma polling_loop_crash_is_type_error (fuel : nat) (net : network) (h evs : trace)
    (x : exn) :
  polling_loop fuel net h = (Crashed x, evs) -> exists what, x = TypeError what.
Proof.
  revert h evs. induction fuel as [ | fuel IH]; intros h evs; [discriminate | ].
  cbn [polling_loop]. unfold bind at 1, asyncio_sleep, emit.
  destruct (get_liquidity_run net h) as (L & logs1 & HL & _).
  destruct (check_balance_run asset_to_deposit net (h ++ Http liquidity_fetch :: logs1))
    as (B & logs2 & HB & _).
  destruct (make_decision_run net h L B _ _ HL HB) as (r & cyc & -> & Hrun).
  destruct r as [[] | y].
  - destruct (polling_loop fuel net (h ++ cyc ++ [Sleep 60])) as [s rest] eqn:Hrest.
    intros [= -> <-]. eapply IH; eassumption.
  - intros [= <- <-].
    unfold gate in Hrun. destruct (truthy L).
    + destruct B; cbn in Hrun; destruct Hrun as [Hr _];
        try discriminate; injection Hr as ->; eauto.
    + destruct Hrun; discriminate.
Qed.

(** C7 fails on the code: a balance that arrives as a JSON string makes
    the threshold comparison of the first cycle raise [TypeError]; nothing
    catches it, and the loop ends before its first sleep, whatever the
    number of iterations it was to run. *)
Theorem polling_loop_crashes_on_string_balance (fuel : nat) :
  aave_crypto_bot (S fuel) (serve (ok pool) (balance_of (PyStr "5000"))) [] =
    (Crashed (TypeError "'>=' not supported between instances of 'str' and 'int'"),
     [Log INFO "Starting the Aave crypto bot on Avalanche..." NoArg;
      Http liquidity_fetch;
      Log INFO "Current liquidity data:" NoArg;
      Log INFO EmptyString (ValArg pool);
      Http (balance_fetch asset_to_deposit);
      Log INFO "Available DAI balance: " (ValArg (PyStr "5000"))]) /\
  sleeps (snd (aave_crypto_bot (S fuel) (serve (ok pool) (balance_of (PyStr "5000"))) []))
    = [].
Proof. split; reflexivity. Qed.

(** * Further properties of the remote operations *)

(** X1: whatever the service answers, [check_balance] returns without
    raising after exactly one GET to [balance_url/asset] and one log
    record.  Either the response passed [raise_for_status] and its JSON
    body has a ['balance'] field, and then that field is returned as it
    is, of whatever type, after an INFO record; or the fetch failed, and
    then the int 0 is returned after an ERROR record. *)
Theorem check_balance_outcome (asset : string) (net : network) (h : trace) :
  (exists r data v,
     net h (balance_fetch asset) = Answered r /\
     status r < 400 /\
     parsed (body r) = Some data /\
     subscript data "balance" = Returned v /\
     check_balance asset net h =
       (Returned v,
        [Http (balance_fetch asset);
         Log INFO ("Available " ++ asset ++ " balance: ")%string (ValArg v)])) \/
  (balance_fetch_failed (net h (balance_fetch asset)) /\
   exists e,
     check_balance asset net h =
       (Returned (PyInt 0),
        [Http (balance_fetch asset);
         Log ERROR "Error checking balance: " (ExnArg e)])).
Proof.
  destruct (net h (balance_fetch asset)) as [reason | r] eqn:Hnet.
  - right. split; [exact I | ]. apply check_balance_failed. now rewrite Hnet.
  - assert (Hfail : balance_fetch_failed (Answered r) ->
              balance_fetch_failed (Answered r) /\
              exists e,
                check_balance asset net h =
                  (Returned (PyInt 0),
                   [Http (balance_fetch asset);
                    Log ERROR "Error checking balance: " (ExnArg e)])).
    { intros F. split; [exact F | ]. apply check_balance_failed. now rewrite Hnet. }
    destruct (Z_lt_le_dec (status r) 400) as [Hst | Hst];
      [ | right; apply Hfail; now left].
    destruct (parsed (body r)) as [data | ] eqn:Hbody;
      [ | right; apply Hfail; right; now rewrite Hbody].
    destruct (subscript data "balance") as [v | x] eqn:Hsub.
    + left. exists r, data, v. repeat split; try assumption.
      now apply (check_balance_ok asset net h r data v).
    + right. apply Hfail. right. rewrite Hbody. intros v. now rewrite Hsub.
Qed.

(** A liquidity fetch that passes [raise_for_status] with a JSON body the
    logging module can render yields that body after two INFO records. *)
Lemma get_liquidity_ok (net : network) (h : trace) (r : response) (data : value) :
  net h liquidity_fetch = Answered r ->
  status r < 400 ->
  body r = Json data ->
  get_liquidity net h =
    (Returned data,
     [Http liquidity_fetch;
      Log INFO "Current liquidity data:" NoArg;
      Log INFO EmptyString (ValArg data)]).
Proof.
  intros Hnet Hst Hbody.
  unfold get_liquidity, liquidity_fetch in *. unfold_run.
  rewrite Hnet. apply Z.leb_gt in Hst. now rewrite Hst, Hbody.
Qed.

(** A liquidity body that parses but is too deep to be rendered makes
    [logger.info(data)] raise inside the [try] block: the payload is
    dropped and [None] is returned after an INFO and an ERROR record. *)
Lemma get_liquidity_deep (net : network) (h : trace) (r : response) (data : value) :
  net h liquidity_fetch = Answered r ->
  status r < 400 ->
  body r = DeepJson data ->
  get_liquidity net h =
    (Returned PyNone,
     [Http liquidity_fetch;
      Log INFO "Current liquidity data:" NoArg;
      Log ERROR "Error fetching liquidity data: " (ExnArg RecursionError)]).
Proof.
  intros Hnet Hst Hbody.
  unfold get_liquidity, liquidity_fetch in *. unfold_run.
  rewrite Hnet. apply Z.leb_gt in Hst. now rewrite Hst, Hbody.
Qed.

(** X2: whatever the service answers, [get_liquidity] returns without
    raising after exactly one GET to [liquidity_url], in one of three
    ways.  The response passed [raise_for_status] with a JSON body that
    the logging module renders: that body is returned unchanged and
    unvalidated after two INFO records.  The response passed and its body
    parsed, but [logger.info(data)] raised [RecursionError] on it: [None]
    is returned after one INFO and one ERROR record.  Or the fetch failed:
    [None] is returned after one ERROR record. *)
Theorem get_liquidity_outcome (net : network) (h : trace) :
  (exists r data,
     net h liquidity_fetch = Answered r /\
     status r < 400 /\
     body r = Json data /\
     get_liquidity net h =
       (Returned data,
        [Http liquidity_fetch;
         Log INFO "Current liquidity data:" NoArg;
         Log INFO EmptyString (ValArg data)])) \/
  (exists r data,
     net h liquidity_fetch = Answered r /\
     status r < 400 /\
     body r = DeepJson data /\
     get_liquidity net h =
       (Returned PyNone,
        [Http liquidity_fetch;
         Log INFO "Current liquidity data:" NoArg;
         Log ERROR "Error fetching liquidity data: " (ExnArg RecursionError)])) \/
  (fetch_failed (net h liquidity_fetch) /\
   exists e,
     get_liquidity net h =
       (Returned PyNone,
        [Http liquidity_fetch;
         Log ERROR "Error fetching liquidity data: " (ExnArg e)])).
Proof.
  destruct (net h liquidity_fetch) as [reason | r] eqn:Hnet.
  - right. right. split; [exact I | ]. apply get_liquidity_failed. now rewrite Hnet.
  - assert (Hfail : fetch_failed (Answered r) ->
              fetch_failed (Answered r) /\
              exists e,
                get_liquidity net h =
                  (Returned PyNone,
                   [Http liquidity_fetch;
                    Log ERROR "Error fetching liquidity data: " (ExnArg e)])).
    { intros F. split; [exact F | ]. apply get_liquidity_failed. now rewrite Hnet. }
    destruct (Z_lt_le_dec (status r) 400) as [Hst | Hst];
      [ | right; right; apply Hfail; now left].
    destruct (body r) as [data | | data] eqn:Hbody.
    + left. exists r, data. repeat split; try assumption.
      now apply (get_liquidity_ok net h r data).
    + right. right. apply Hfail. now right.
    + right. left. exists r, data. repeat split; try assumption.
      now apply (get_liquidity_deep net h r data).
Qed.

(** X3: the caller cannot tell why it got [None]: [get_liquidity]
    returns [None] exactly when the fetch failed, the body was JSON
    [null], or the body parsed but was too deep for [logger.info(data)]. *)
Theorem get_liquidity_none_iff (net : network) (h : trace) :
  fst (get_liquidity net h) = Returned PyNone <->
  fetch_failed (net h liquidity_fetch) \/
  exists r,
    net h liquidity_fetch = Answered r /\
    (body r = Json PyNone \/ exists data, body r = DeepJson data).
Proof.
  split.
  - intros Hnone.
    destruct (net h liquidity_fetch) as [reason | r] eqn:Hnet; [left; exact I | ].
    destruct (Z_lt_le_dec (status r) 400) as [Hst | Hst]; [ | left; left; exact Hst].
    destruct (body r) as [data | | data] eqn:Hbody.
    + rewrite (get_liquidity_ok net h r data Hnet Hst Hbody) in Hnone.
      cbn in Hnone. injection Hnone as ->.
      right. exists r. split; [reflexivity | now left].
    + left. now right.
    + right. exists r. split; [reflexivity | right; now exists data].
  - intros [F | (r & Hnet & Hbody)].
    + destruct (get_liquidity_failed net h F) as [e ->]. reflexivity.
    + destruct (Z_lt_le_dec (status r) 400) as [Hst | Hst].
      * destruct Hbody as [Hbody | [data Hbody]].
        -- now rewrite (get_liquidity_ok net h r PyNone Hnet Hst Hbody).
        -- now rewrite (get_liquidity_deep net h r data Hnet Hst Hbody).
      * assert (F : fetch_failed (net h liquidity_fetch)).
        { rewrite Hnet. now left. }
        destruct (get_liquidity_failed net h F) as [e ->]. reflexivity.
Qed.

(** Closes the cases of an action where the log level and the answer
    disagree. *)
Ltac action_cases :=
  match goal with
  | |- exists lv text arg, (_, [_; Log ?l ?t ?a]) = _ /\ _ =>
      exists l, t, a; split; [reflexivity | ]
  end;
  unfold action_succeeded;
  (split;
   [ try discriminate; intros _; do 4 eexists;
     repeat split; try reflexivity; try eassumption; status_lia
   | try reflexivity;
     intros (r & data & st & txid & Ha & Hs & Hb & Hst & Heq & Htx);
     try discriminate;
     injection Ha as <-; cbn [status body] in *;
     try discriminate;
     try (injection Hb as <-); try congruence; status_lia ]).

(** X4: whatever the service answers, [deposit_assets] returns without
    raising after exactly one POST to [deposit_url], carrying the key, the
    amount and the asset it was given, and exactly one log record; the
    record is an INFO record exactly when the action succeeded, and an
    ERROR record otherwise. *)
Theorem deposit_assets_outcome (key : string) (amount : Z) (asset : string)
    (net : network) (h : trace) :
  exists lv text arg,
    deposit_assets key amount asset net h =
      (Returned tt,
       [Http (POST deposit_url
                [("private_key", PyStr key); ("amount", PyInt amount);
                 ("asset", PyStr asset)]);
        Log lv text arg]) /\
    (lv = INFO <->
     action_succeeded
       (net h (POST deposit_url
                 [("private_key", PyStr key); ("amount", PyInt amount);
                  ("asset", PyStr asset)]))).
Proof.
  unfold deposit_assets. unfold_run. run; action_cases.
Qed.

(** X5: whatever the service answers, [borrow_assets] returns without
    raising after exactly one POST to [borrow_url], carrying the key, the
    amount, the collateral, the asset and the duration it was given, and
    exactly one log record; the record is an INFO record exactly when the
    action succeeded, and an ERROR record otherwise. *)
Theorem borrow_assets_outcome (key : string) (amount collateral : Z)
    (asset : string) (duration : Z) (net : network) (h : trace) :
  exists lv text arg,
    borrow_assets key amount collateral asset duration net h =
      (Returned tt,
       [Http (POST borrow_url
                [("private_key", PyStr key); ("amount", PyInt amount);
                 ("collateral", PyInt collateral); ("asset", PyStr asset);
                 ("duration", PyInt duration)]);
        Log lv text arg]) /\
    (lv = INFO <->
     action_succeeded
       (net h (POST borrow_url
                 [("private_key", PyStr key); ("amount", PyInt amount);
                  ("collateral", PyInt collateral); ("asset", PyStr asset);
                  ("duration", PyInt duration)]))).
Proof.
  unfold borrow_assets. unfold_run. run; action_cases.
Qed.

(** X6: when the body lacks the field the log message interpolates
    (['txid'] after a ["success"] status, ['message'] after any other),
    the lookup raises inside the [try] block: the intended message is not
    written, and the catch-all handler reports the lookup error instead,
    so that a success without ['txid'] is logged as an error. *)
Theorem missing_log_field_is_reported_as_request_error
    (key : string) (amount collateral : Z) (asset : string) (duration : Z)
    (net : network) (h : trace) (r : response) (data st : value) (e : exn) :
  status r < 400 ->
  parsed (body r) = Some data ->
  subscript data "status" = Returned st ->
  subscript data (if py_eq_str st "success" then "txid" else "message") = Raised e ->
  (net h (POST deposit_url
            [("private_key", PyStr key); ("amount", PyInt amount);
             ("asset", PyStr asset)]) = Answered r ->
   deposit_assets key amount asset net h =
     (Returned tt,
      [Http (POST deposit_url
               [("private_key", PyStr key); ("amount", PyInt amount);
                ("asset", PyStr asset)]);
       Log ERROR "Error with deposit request: " (ExnArg e)])) /\
  (net h (POST borrow_url
            [("private_key", PyStr key); ("amount", PyInt amount);
             ("collateral", PyInt collateral); ("asset", PyStr asset);
             ("duration", PyInt duration)]) = Answered r ->
   borrow_assets key amount collateral asset duration net h =
     (Returned tt,
      [Http (POST borrow_url
               [("private_key", PyStr key); ("amount", PyInt amount);
                ("collateral", PyInt collateral); ("asset", PyStr asset);
                ("duration", PyInt duration)]);
       Log ERROR "Error borrowing request: " (ExnArg e)])).
Proof.
  intros Hst Hbody Hstatus Hfield. apply Z.leb_gt in Hst.
  split; intros Hnet.
  - unfold deposit_assets. unfold_run.
    rewrite Hnet, Hst, Hbody. cbn [app]. rewrite Hstatus.
    destruct (py_eq_str st "success"); now rewrite Hfield.
  - unfold borrow_assets. unfold_run.
    rewrite Hnet, Hst, Hbody. cbn [app]. rewrite Hstatus.
    destruct (py_eq_str st "success"); now rewrite Hfield.
Qed.

Lemma missing_log_field_is_reported_as_request_error_witness :
  deposit_assets private_key 5000 "DAI"
    (always (ok (PyDict [("status", PyStr "success")]))) [] =
    (Returned tt,
     [Http deposit_request;
      Log ERROR "Error with deposit request: " (ExnArg (KeyError "txid"))]) /\
  borrow_assets private_key 1000 2000 "USDT" 30
    (always (ok (PyDict [("status", PyStr "success")]))) [] =
    (Returned tt,
     [Http borrow_request;
      Log ERROR "Error borrowing request: " (ExnArg (KeyError "txid"))]).
Proof.
  split.
  - apply (proj1 (missing_log_field_is_reported_as_request_error
                    private_key 5000 0 "DAI" 0
                    (always (ok (PyDict [("status", PyStr "success")]))) []
                    {| status := 200; body := Json (PyDict [("status", PyStr "success")]) |}
                    (PyDict [("status", PyStr "success")]) (PyStr "success")
                    (KeyError "txid")
                    ltac:(simpl; lia) eq_refl eq_refl eq_refl)).
    reflexivity.
  - apply (proj2 (missing_log_field_is_reported_as_request_error
                    private_key 1000 2000 "USDT" 30
                    (always (ok (PyDict [("status", PyStr "success")]))) []
                    {| status := 200; body := Json (PyDict [("status", PyStr "success")]) |}
                    (PyDict [("status", PyStr "success")]) (PyStr "success")
                    (KeyError "txid")
                    ltac:(simpl; lia) eq_refl eq_refl eq_refl)).
    reflexivity.
Defined.

(** * Further properties of a cycle *)

(** X7: a cycle raises exactly when its liquidity is truthy and the
    comparison of its balance with the deposit amount raises, that is when
    the balance is not a number; it then raises that [TypeError], having
    sent the two fetches and no action. *)
Theorem cycle_raises_iff (net : network) (h : trace) (L B : value)
    (e1 e2 : trace) (x : exn) :
  get_liquidity net h = (Returned L, e1) ->
  check_balance asset_to_deposit net (h ++ e1) = (Returned B, e2) ->
  (fst (make_decision net h) = Raised x <->
   truthy L = true /\ py_ge B amount_to_deposit = Raised x) /\
  (fst (make_decision net h) = Raised x ->
   requests (snd (make_decision net h)) =
     [liquidity_fetch; balance_fetch asset_to_deposit]).
Proof.
  intros HL HB.
  destruct (make_decision_run net h L B e1 e2 HL HB) as (r & evs & -> & Hrun).
  cbn [fst snd].
  destruct (gate L B amount_to_deposit) as [d | y] eqn:Gd.
  - destruct (gate_raises_together L B amount_to_deposit collateral_for_borrow d Gd)
      as [b Gb].
    rewrite Gb in Hrun. destruct Hrun as [-> _].
    split; [split | ]; try discriminate.
    intros [HT HG]. unfold gate in Gd. rewrite HT in Gd. congruence.
  - destruct Hrun as [-> Hrq]. split; [ | intros _; exact Hrq].
    unfold gate in Gd. destruct (truthy L); [ | discriminate].
    split.
    + intros [= <-]. now split.
    + intros [_ HG]. congruence.
Qed.

Lemma cycle_raises_iff_witness :
  fst (make_decision (serve (ok pool) (balance_of (PyNone))) []) =
    Raised (TypeError "'>=' not supported between instances of 'NoneType' and 'int'") /\
  requests (snd (make_decision (serve (ok pool) (balance_of (PyNone))) [])) =
    [liquidity_fetch; balance_fetch asset_to_deposit].
Proof.
  pose proof (fun e1 e2 =>
                cycle_raises_iff (serve (ok pool) (balance_of (PyNone))) []
                  pool PyNone e1 e2
                  (TypeError "'>=' not supported between instances of 'NoneType' and 'int'"))
    as T.
  edestruct T as [[_ H] H']; [reflexivity | reflexivity | ].
  assert (E : fst (make_decision (serve (ok pool) (balance_of (PyNone))) []) =
              Raised (TypeError "'>=' not supported between instances of 'NoneType' and 'int'")).
  { apply H. split; reflexivity. }
  split; [exact E | exact (H' E)].
Defined.

(** X8: every cycle, whatever the service answers and however it ends,
    first fetches the liquidity, then fetches the balance of the deposit
    asset (also when the liquidity fetch failed), and only then acts; its
    actions are none, the borrow alone, or the deposit followed by the
    borrow.  No other request is ever sent, and a deposit is never sent
    alone. *)
Theorem cycle_requests_shape (net : network) (h : trace) :
  exists acts,
    requests (snd (make_decision net h)) =
      liquidity_fetch :: balance_fetch asset_to_deposit :: acts /\
    (acts = [] \/ acts = [borrow_request] \/
     acts = [deposit_request; borrow_request]).
Proof.
  destruct (get_liquidity_run net h) as (L & logs1 & HL & _).
  destruct (check_balance_run asset_to_deposit net (h ++ Http liquidity_fetch :: logs1))
    as (B & logs2 & HB & _).
  destruct (make_decision_run net h L B _ _ HL HB) as (r & evs & -> & Hrun).
  cbn [snd].
  destruct (gate L B amount_to_deposit) as [[ | ] | x] eqn:Gd.
  - assert (Gb : gate L B collateral_for_borrow = Returned true).
    { apply gate_true in Gd. destruct Gd as [HT HG]. apply gate_true.
      split; [assumption | ].
      apply py_ge_weaken with (n := amount_to_deposit); [ | assumption].
      unfold collateral_for_borrow, amount_to_deposit. lia. }
    rewrite Gb in Hrun. destruct Hrun as [_ ->]. eauto.
  - destruct (gate L B collateral_for_borrow) as [[ | ] | x];
      destruct Hrun as [_ ->]; eauto.
  - destruct Hrun as [_ ->]. eauto.
Qed.

(** X9: the decision table for an integer balance [b] under a truthy
    liquidity: below 2000 the cycle does nothing, from 2000 to 4999 it
    borrows only, from 5000 on it deposits and then borrows; in each case
    it returns normally. *)
Theorem integer_balance_decision (net : network) (h : trace) (L : value) (b : Z)
    (e1 e2 : trace) :
  get_liquidity net h = (Returned L, e1) ->
  check_balance asset_to_deposit net (h ++ e1) = (Returned (PyInt b), e2) ->
  truthy L = true ->
  fst (make_decision net h) = Returned tt /\
  actions (snd (make_decision net h)) =
    if 5000 <=? b then [deposit_request; borrow_request]
    else if 2000 <=? b then [borrow_request]
    else [].
Proof.
  intros HL HB HT.
  destruct (make_decision_run net h L (PyInt b) e1 e2 HL HB) as (r & evs & -> & Hrun).
  unfold gate in Hrun. rewrite HT in Hrun. cbn [py_ge] in Hrun.
  destruct Hrun as [-> Hrq]. cbn [fst snd]. split; [reflexivity | ].
  rewrite (actions_of_requests _ _ Hrq).
  unfold amount_to_deposit, collateral_for_borrow.
  destruct (5000 <=? b) eqn:H5; destruct (2000 <=? b) eqn:H2; try reflexivity.
  apply Z.leb_le in H5. apply Z.leb_gt in H2. lia.
Qed.

Lemma integer_balance_decision_witness :
  fst (make_decision (serve (ok pool) (balance_of (PyInt 3000))) []) = Returned tt /\
  actions (snd (make_decision (serve (ok pool) (balance_of (PyInt 3000))) [])) =
    [borrow_request].
Proof.
  eapply (integer_balance_decision (serve (ok pool) (balance_of (PyInt 3000))) []
            pool 3000); reflexivity.
Defined.

(** X10: a balance that arrives as a JSON boolean, as NaN or as negative
    infinity compares without raising and never reaches a threshold: the
    cycle returns normally without any action, whatever the liquidity. *)
Theorem boolean_or_nan_balance_never_acts (net : network) (h : trace) (L B : value)
    (e1 e2 : trace) :
  get_liquidity net h = (Returned L, e1) ->
  check_balance asset_to_deposit net (h ++ e1) = (Returned B, e2) ->
  (exists b, B = PyBool b) \/ B = PyFloat FNan \/ B = PyFloat (FInf true) ->
  fst (make_decision net h) = Returned tt /\
  actions (snd (make_decision net h)) = [].
Proof.
  intros HL HB HBk.
  apply (closed_gates_no_actions net h L B e1 e2 HL HB);
    unfold gate; destruct (truthy L); try reflexivity;
    destruct HBk as [[[ | ] ->] | [-> | ->]]; reflexivity.
Qed.

Lemma boolean_or_nan_balance_never_acts_witness :
  fst (make_decision (serve (ok pool) (balance_of (PyBool true))) []) = Returned tt /\
  actions (snd (make_decision (serve (ok pool) (balance_of (PyBool true))) [])) = [].
Proof.
  eapply (boolean_or_nan_balance_never_acts
            (serve (ok pool) (balance_of (PyBool true))) [] pool (PyBool true));
    [reflexivity | reflexivity | ].
  left. exists true. reflexivity.
Defined.

(** X11: every action a cycle sends is a POST to the deposit or the
    borrow endpoint whose JSON body carries the configured private key
    itself under ['private_key']. *)
Theorem every_action_carries_the_private_key (net : network) (h : trace) (rq : request) :
  In rq (actions (snd (make_decision net h))) ->
  exists url json,
    rq = POST url json /\
    (url = deposit_url \/ url = borrow_url) /\
    dict_get json "private_key" = Some (PyStr private_key).
Proof.
  destruct (get_liquidity_run net h) as (L & logs1 & HL & _).
  destruct (check_balance_run asset_to_deposit net (h ++ Http liquidity_fetch :: logs1))
    as (B & logs2 & HB & _).
  destruct (make_decision_run net h L B _ _ HL HB) as (r & evs & -> & Hrun).
  cbn [snd].
  assert (Hdep : exists url json, deposit_request = POST url json /\
                   (url = deposit_url \/ url = borrow_url) /\
                   dict_get json "private_key" = Some (PyStr private_key)).
  { do 2 eexists. split; [reflexivity | ]. split; [now left | reflexivity]. }
  assert (Hbor : exists url json, borrow_request = POST url json /\
                   (url = deposit_url \/ url = borrow_url) /\
                   dict_get json "private_key" = Some (PyStr private_key)).
  { do 2 eexists. split; [reflexivity | ]. split; [now right | reflexivity]. }
  destruct (gate L B amount_to_deposit) as [[ | ] | x];
    destruct (gate L B collateral_for_borrow) as [[ | ] | x'];
    destruct Hrun as [_ Hrq]; rewrite (actions_of_requests _ _ Hrq);
    cbn; intros Hin;
    repeat match goal with
           | H : _ \/ _ |- _ => destruct H
           | H : False |- _ => contradiction
           end; subst; assumption.
Qed.

Lemma every_action_carries_the_private_key_witness :
  exists url json,
    deposit_request = POST url json /\
    (url = deposit_url \/ url = borrow_url) /\
    dict_get json "private_key" = Some (PyStr private_key).
Proof.
  apply (every_action_carries_the_private_key
           (serve (ok pool) (balance_of (PyInt 5000))) [] deposit_request).
  simpl. left. reflexivity.
Defined.

(** * Further properties of the polling loop *)

Lemma history_free_ret {A} (a : A) : history_free (ret a).
Proof. now intros net Hs h h'. Qed.

Lemma history_free_raise {A} (e : exn) : history_free (@raise A e).
Proof. now intros net Hs h h'. Qed.

Lemma history_free_lift {A} (r : result A) : history_free (lift r).
Proof. now intros net Hs h h'. Qed.

Lemma history_free_emit (ev : event) : history_free (emit ev).
Proof. now intros net Hs h h'. Qed.

Lemma history_free_send (rq : request) : history_free (send rq).
Proof. intros net Hs h h'. unfold send. now rewrite (Hs h h' rq). Qed.

Lemma history_free_bind {A B} (m : M A) (k : A -> M B) :
  history_free m -> (forall a, history_free (k a)) -> history_free (bind m k).
Proof.
  intros Hm Hk net Hs h h'. unfold bind.
  rewrite (Hm net Hs h h').
  destruct (m net h') as [[a | x] e1]; [ | reflexivity].
  now rewrite (Hk a net Hs (h ++ e1) (h' ++ e1)).
Qed.

Lemma history_free_try_except {A} (m : M A) (handler : exn -> M A) :
  history_free m -> (forall e, history_free (handler e)) ->
  history_free (try_except m handler).
Proof.
  intros Hm Hk net Hs h h'. unfold try_except.
  rewrite (Hm net Hs h h').
  destruct (m net h') as [[a | x] e1]; [reflexivity | ].
  now rewrite (Hk x net Hs (h ++ e1) (h' ++ e1)).
Qed.

(** Follows the structure of a coroutine down to its primitives. *)
Ltac history_free :=
  repeat first
    [ apply history_free_try_except
    | apply history_free_bind
    | apply history_free_ret
    | apply history_free_raise
    | apply history_free_lift
    | apply history_free_emit
    | apply history_free_send
    | match goal with
      | |- history_free (if ?c then _ else _) => destruct c
      | |- history_free (match parsed (body ?r) with Some _ => _ | None => _ end) =>
          destruct (parsed (body r))
      | |- history_free (match body ?r with DeepJson _ => _ | _ => _ end) =>
          destruct (body r)
      | |- forall _, history_free _ => intro
      end ].

Lemma make_decision_history_free : history_free make_decision.
Proof.
  unfold make_decision, get_liquidity, check_balance, deposit_assets, borrow_assets,
    session_get, session_post, raise_for_status, response_json,
    logger_info_data, logger_info, logger_error.
  history_free.
Qed.

(** X12: the bot keeps no state between cycles.  Against a stateless
    service on which one cycle returns with the events [cyc], the run of
    the bot is the start message followed, for every iteration, by the
    events [cyc] of one whole cycle and then one sleep of 60; after any
    number of iterations the loop is still running. *)
Theorem stateless_service_gives_periodic_run (net : network) (cyc : trace)
    (fuel : nat) (h : trace) :
  stateless net ->
  make_decision net [] = (Returned tt, cyc) ->
  aave_crypto_bot fuel net h =
    (Running,
     Log INFO "Starting the Aave crypto bot on Avalanche..." NoArg ::
       List.concat (repeat (cyc ++ [Sleep 60]) fuel)).
Proof.
  intros Hs Hcyc.
  assert (Hloop : forall n h', polling_loop n net h' =
                    (Running, List.concat (repeat (cyc ++ [Sleep 60]) n))).
  { induction n as [ | n IH]; intros h'; [reflexivity | ].
    cbn [polling_loop]. unfold bind at 1, asyncio_sleep, emit.
    rewrite (make_decision_history_free net Hs h' []), Hcyc, IH.
    reflexivity. }
  unfold aave_crypto_bot. now rewrite Hloop.
Qed.

Lemma stateless_service_gives_periodic_run_witness :
  aave_crypto_bot 3 (serve (ok pool) (balance_of (PyInt 10))) [] =
    (Running,
     Log INFO "Starting the Aave crypto bot on Avalanche..." NoArg ::
       List.concat (repeat
                 (snd (make_decision (serve (ok pool) (balance_of (PyInt 10))) [])
                  ++ [Sleep 60]) 3)).
Proof.
  apply (stateless_service_gives_periodic_run
           (serve (ok pool) (balance_of (PyInt 10)))
           (snd (make_decision (serve (ok pool) (balance_of (PyInt 10))) []))
           3 []).
  - intros h h' rq. reflexivity.
  - reflexivity.
Defined.

Lemma polling_loop_running_witness :
  sleeps (snd (polling_loop 2 (serve (ok pool) (balance_of (PyInt 5000))) [])) =
    [60; 60] /\
  sent_to liquidity_url
    (snd (polling_loop 2 (serve (ok pool) (balance_of (PyInt 5000))) [])) =
    [liquidity_fetch; liquidity_fetch].
Proof.
  apply (polling_loop_running 2 (serve (ok pool) (balance_of (PyInt 5000))) []).
  reflexivity.
Defined.

(** X14: when the loop ends, it ends inside a cycle, on the [TypeError]
    of a threshold comparison: [k] whole cycles, each followed by a sleep
    of 60, came before, and the cycle that raised had fetched the
    liquidity and is followed by no sleep. *)
Theorem polling_loop_crash_shape (fuel : nat) (net : network) (h evs : trace)
    (x : exn) :
  polling_loop fuel net h = (Crashed x, evs) ->
  exists k what,
    (k < fuel)%nat /\
    x = TypeError what /\
    sleeps evs = repeat 60 k /\
    sent_to liquidity_url evs = repeat liquidity_fetch (S k).
Proof.
  intros Hcrash.
  destruct (polling_loop_crash_is_type_error fuel net h evs x Hcrash) as [what ->].
  revert h evs Hcrash.
  induction fuel as [ | fuel IH]; intros h evs; [discriminate | ].
  cbn [polling_loop]. unfold bind at 1, asyncio_sleep, emit.
  pose proof (make_decision_sleeps net h) as Hs.
  pose proof (make_decision_fetches_liquidity_once net h) as Hq.
  destruct (make_decision net h) as [[[] | y] cyc]; cbn [snd] in Hs, Hq.
  - destruct (polling_loop fuel net (h ++ cyc ++ [Sleep 60])) as [s rest] eqn:Hrest.
    intros [= -> <-].
    destruct (IH _ _ Hrest) as (k & what' & Hk & Hw & IHs & IHq).
    exists (S k), what.
    rewrite !sleeps_app, !sent_to_app, Hs, Hq, IHs, IHq.
    repeat split; try reflexivity. lia.
  - intros [= -> <-]. exists O, what.
    rewrite Hs, Hq. repeat split; try reflexivity. lia.
Qed.

Lemma polling_loop_crash_shape_witness :
  exists k what,
    (k < 3)%nat /\
    TypeError "'>=' not supported between instances of 'str' and 'int'" = TypeError what /\
    sleeps (snd (polling_loop 3 (serve (ok pool) (balance_of (PyStr "5000"))) [])) =
      repeat 60 k /\
    sent_to liquidity_url
      (snd (polling_loop 3 (serve (ok pool) (balance_of (PyStr "5000"))) [])) =
      repeat liquidity_fetch (S k).
Proof.
  apply (polling_loop_crash_shape 3 (serve (ok pool) (balance_of (PyStr "5000"))) []).
  reflexivity.
Defined.

(** * The messages of a cycle *)

Lemma notices_app (a b : trace) : notices (a ++ b) = notices a ++ notices b.
Proof. apply flat_map_app. Qed.

Lemma notices_http (r : request) (t : trace) : notices (Http r :: t) = notices t.
Proof. reflexivity. Qed.

Lemma notices_plain (text : string) (t : trace) :
  notices (Log INFO text NoArg :: t) = text :: notices t.
Proof. reflexivity. Qed.

Lemma notices_nil : notices [] = [].
Proof. reflexivity. Qed.

Create Rewrite HintDb notices.
#[local] Hint Rewrite notices_app notices_http notices_plain notices_nil app_nil_r
  : notices.

(** Every message of the balance fetch and of the two actions
    interpolates a value or an exception. *)
Lemma check_balance_notices (asset : string) (net : network) (h : trace) :
  notices (snd (check_balance asset net h)) = [].
Proof. unfold check_balance. unfold_run. run; reflexivity. Qed.

Lemma deposit_assets_notices (key : string) (amount : Z) (asset : string)
    (net : network) (h : trace) :
  notices (snd (deposit_assets key amount asset net h)) = [].
Proof. unfold deposit_assets. unfold_run. run; reflexivity. Qed.

Lemma borrow_assets_notices (key : string) (amount collateral : Z) (asset : string)
    (duration : Z) (net : network) (h : trace) :
  notices (snd (borrow_assets key amount collateral asset duration net h)) = [].
Proof. unfold borrow_assets. unfold_run. run; reflexivity. Qed.

(** X15: a cycle that completes reports one verdict for each gate,
    the deposit's first: "Conditions are good ..." when the gate is open
    and "Not enough ..." when it is closed, whatever closed it.  Besides
    the messages of the liquidity fetch, these are its only plain
    messages. *)
Theorem cycle_verdicts (net : network) (h : trace) (L B : value) (e1 e2 : trace)
    (d b : bool) :
  get_liquidity net h = (Returned L, e1) ->
  check_balance asset_to_deposit net (h ++ e1) = (Returned B, e2) ->
  gate L B amount_to_deposit = Returned d ->
  gate L B collateral_for_borrow = Returned b ->
  notices (snd (make_decision net h)) =
    notices e1 ++
    [if d then "Conditions are good to deposit."
     else "Not enough balance or liquidity to deposit.";
     if b then "Conditions are good to borrow."
     else "Not enough collateral or liquidity to borrow."].
Proof.
  intros HL HB Gd Gb.
  pose proof (check_balance_notices asset_to_deposit net (h ++ e1)) as N2.
  rewrite HB in N2. cbn [snd] in N2.
  unfold make_decision, bind, lift, logger_info, emit.
  rewrite HL, HB, Gd, Gb.
  destruct d, b;
    repeat match goal with
      | |- context [deposit_assets ?k ?a ?s ?n ?hh] =>
          let N := fresh "N" in
          pose proof (deposit_assets_notices k a s n hh) as N;
          destruct (deposit_assets_run k a s n hh) as (? & ? & ? & E);
          rewrite E in N |- *; cbn [snd] in N; clear E
      | |- context [borrow_assets ?k ?a ?c ?s ?u ?n ?hh] =>
          let N := fresh "N" in
          pose proof (borrow_assets_notices k a c s u n hh) as N;
          destruct (borrow_assets_run k a c s u n hh) as (? & ? & ? & E);
          rewrite E in N |- *; cbn [snd] in N; clear E
      end;
    cbn [snd]; rewrite !notices_app;
    repeat match goal with
           | H : notices _ = [] |- _ => rewrite H; clear H
           end;
    autorewrite with notices; reflexivity.
Qed.

Lemma cycle_verdicts_witness :
  notices (snd (make_decision (serve (ok pool) (balance_of (PyInt 2500))) [])) =
    ["Current liquidity data:";
     "Not enough balance or liquidity to deposit.";
     "Conditions are good to borrow."].
Proof.
  apply (cycle_verdicts (serve (ok pool) (balance_of (PyInt 2500))) []
           pool (PyInt 2500)
           (snd (get_liquidity (serve (ok pool) (balance_of (PyInt 2500))) []))
           (snd (check_balance asset_to_deposit
                   (serve (ok pool) (balance_of (PyInt 2500)))
                   ([] ++ snd (get_liquidity (serve (ok pool) (balance_of (PyInt 2500))) []))))
           false true); reflexivity.
Defined.
